(** * The Portal's AMP server: process supervision and disconnect sequencing

    A shallow embedding of [evennia/server/portal/amp_server.py]: the
    factory state shared by all AMP connections, the [AMPServerProtocol]
    methods that start and stop the Server process, the callback registry
    that waits for a connection to close, and the two administrative
    responders (launcher -> portal, server -> portal).

    Python objects are modelled by explicit state passing.  A method is a
    computation [M A] that takes the state of the Portal process and gives
    back either a returned value or a raised exception, together with the
    state at that point (mutations made before a [raise] persist, as they
    do in Python).  Everything the module does to the outside (spawning,
    logging, sending AMP boxes, calls into the session handler and into
    [Portal.shutdown]) is appended, in order, to a trace of events. *)

From Stdlib Require Import ZArith String Ascii DecimalString.
From stdpp Require Import base option gmap strings list.

Local Open Scope string_scope.
Local Open Scope Z_scope.

(** ** Values *)

(** A protocol instance ([self]); Python compares and hashes them by identity. *)
Abbreviation conn := positive (only parsing).

(** The argument list handed to [Popen]. *)
Abbreviation command := (list string) (only parsing).

(** [os.environ]-like dictionaries. *)
Abbreviation environ := (gmap string string) (only parsing).

(** The few Python values that travel in the keyword arguments of an
    admin message. *)
Inductive pyval :=
| PyNone
| PyBool (b : bool)
| PyStr (s : string).

#[global] Instance pyval_eq_dec : EqDecision pyval.
Proof. solve_decision. Defined.

Abbreviation kwargs := (gmap string pyval) (only parsing).

(** Instances of [Exception] (what [except Exception] catches). *)
Inductive exn :=
| UnboundLocalError (var : string)
| KeyError (key : string)
| TypeError (what : string)
| AttributeError (what : string)
| Exception_ (msg : string)
| OSError_ (errno : Z)
| EOFError_
| OtherError (tag : N).

(** Everything a call can raise: an instance of [Exception], or one of the
    exceptions that derive from [BaseException] only and that
    [except Exception] lets through. *)
Inductive raised :=
| Exc (e : exn)
| SystemExit_ (code : Z)
| KeyboardInterrupt_
| GeneratorExit_.

Coercion Exc : exn >-> raised.

(** What a call either returns or raises. *)
Inductive outcome (A : Type) :=
| Return (a : A)
| Raise (e : raised).
Arguments Return {A} a.
Arguments Raise {A} e.

(** A deferred call [(callback, args, kwargs)] as stored in
    [factory.disconnect_callbacks].  The module registers two kinds itself:
    the bound method [self.start_server] with one positional argument, and
    [portal.shutdown] with the keyword [restart]; any other callable is
    named by a tag and run by the environment. *)
Inductive callback :=
| cb_start_server (self : conn) (server_twistd_cmd : option command)
| cb_portal_shutdown (restart : bool)
| cb_other (f : N).

(** Calls into [portal.sessions], the Portal session handler. *)
Inductive session_call :=
| server_logged_in (sessid : Z) (sessiondata : option pyval)
| server_disconnect (sessid : Z) (reason : option pyval)
| server_disconnect_all (reason : option pyval)
| get_all_sync_data
| at_server_connection
| server_session_sync (sessiondata : option pyval) (clean : pyval)
| server_connect (kw : kwargs).

(** Lines written through [evennia.utils.logger.log_msg]. *)
Inductive log_line :=
| LogOperation (code : nat)
| LogArguments (args : command).

(** Observable effects, oldest first. *)
Inductive event :=
| EvPopen (cmd : option command) (env : environ)
| EvLogMsg (l : log_line)
| EvLogTrace (e : exn)
| EvLogServer (out : string)
| EvSendAdminPortal2Server (sessid : Z) (operation : string) (kw : kwargs)
| EvPortalShutdown (restart : bool)
| EvSessions (c : session_call).

(** What [Popen(...)] followed by [process.stdout.read()] gives. *)
Inductive popen_result :=
| Launched (pid : Z) (out : string)
| LaunchFailed (e : exn).

(** ** State of the Portal process

    [server_process_id] and [server_twistd_cmd] live on the [Portal]
    service; [server_connection], [disconnect_callbacks] and
    [server_restart_mode] on the [AMPServerFactory]; [transport_connected]
    is the set of protocols whose [transport.connected] is true;
    [sessions] the session ids known to [portal.sessions]. *)
Record State := mkState {
  server_process_id : option Z;
  server_twistd_cmd : option command;
  server_connection : option conn;
  disconnect_callbacks : gmap conn callback;
  server_restart_mode : bool;
  transport_connected : gset conn;
  sessions : gset Z;
  trace : list event
}.

Definition set_server_process_id (v : option Z) (st : State) : State :=
  mkState v (server_twistd_cmd st) (server_connection st)
          (disconnect_callbacks st) (server_restart_mode st)
          (transport_connected st) (sessions st) (trace st).

Definition set_server_twistd_cmd (v : option command) (st : State) : State :=
  mkState (server_process_id st) v (server_connection st)
          (disconnect_callbacks st) (server_restart_mode st)
          (transport_connected st) (sessions st) (trace st).

Definition set_server_connection (v : option conn) (st : State) : State :=
  mkState (server_process_id st) (server_twistd_cmd st) v
          (disconnect_callbacks st) (server_restart_mode st)
          (transport_connected st) (sessions st) (trace st).

Definition set_disconnect_callbacks (v : gmap conn callback) (st : State) : State :=
  mkState (server_process_id st) (server_twistd_cmd st) (server_connection st)
          v (server_restart_mode st)
          (transport_connected st) (sessions st) (trace st).

Definition set_server_restart_mode (v : bool) (st : State) : State :=
  mkState (server_process_id st) (server_twistd_cmd st) (server_connection st)
          (disconnect_callbacks st) v
          (transport_connected st) (sessions st) (trace st).

Definition set_trace (v : list event) (st : State) : State :=
  mkState (server_process_id st) (server_twistd_cmd st) (server_connection st)
          (disconnect_callbacks st) (server_restart_mode st)
          (transport_connected st) (sessions st) v.

Definition emit_to (ev : event) (st : State) : State :=
  set_trace (trace st ++ [ev]) st.

(** ** The monad of methods *)

Definition M (A : Type) : Type := State -> outcome A * State.

Definition ret {A} (a : A) : M A := fun st => (Return a, st).

Definition raise {A} (e : raised) : M A := fun st => (Raise e, st).

Definition bind {A B} (m : M A) (k : A -> M B) : M B :=
  fun st =>
    match m st with
    | (Return a, st') => k a st'
    | (Raise e, st') => (Raise e, st')
    end.

(** [try: m / except Exception:] as a value: the handler is chosen by the
    caller from [inl e]; what is not an instance of [Exception] is not
    caught and goes on to the caller. *)
Definition try {A} (m : M A) : M (exn + A) :=
  fun st =>
    match m st with
    | (Return a, st') => (Return (inr a), st')
    | (Raise (Exc e), st') => (Return (inl e), st')
    | (Raise b, st') => (Raise b, st')
    end.

Definition gets {A} (f : State -> A) : M A := fun st => (Return (f st), st).

Definition modify (f : State -> State) : M unit := fun st => (Return tt, f st).

Definition emit (ev : event) : M unit := modify (emit_to ev).

Notation "x <~ m ; k" := (bind m (fun x => k))
  (at level 100, m at next level, right associativity,
   format "'[v' x  <~  m ; '/' k ']'").
Notation "m ;;; k" := (bind m (fun _ => k))
  (at level 100, right associativity,
   format "'[v' m ;;; '/' k ']'").

(** ** The absent collaborators

    The [amp] module, the operating system and foreign callables are not
    part of this file of the repository; they are taken as parameters. *)
Class Collaborators := {
  (** operation codes of [amp] whose value the source does not show *)
  SLOGIN : string;
  SDISCONN : string;
  SDISCONNALL : string;
  PSYNC : string;
  SSYNC : string;
  SCONN : string;
  (** [amp.DUMMYSESSION.sessid] *)
  DUMMYSESSION : Z;
  (** [amp.dumps((success, txt))] *)
  dumps : bool -> string -> string;
  (** [amp.loads(arguments)]: the launch command carried by the blob, or
      the exception raised when the blob cannot be decoded *)
  loads : string -> outcome command;
  (** [self.data_in(packed_data)]: the pair [(sessid, kwargs)] *)
  data_in : string -> Z * kwargs;
  (** [os.name], [os.environ], [sys.path] *)
  os_name : string;
  os_environ : environ;
  sys_path : list string;
  (** the subprocess facility; its answer may depend on all that
      happened before *)
  Popen : list event -> option command -> environ -> popen_result;
  (** what [portal.sessions.get_all_sync_data()] gives for the known sessions *)
  sync_data_of : gset Z -> pyval;
  (** [Portal.shutdown(restart=...)], which is not in this file *)
  Portal_shutdown : bool -> M unit;
  (** running a foreign callable *)
  call_other : N -> M unit
}.

(** ** Operation codes shown in the source

    [amp.SSTART] and the others are single characters; the responder's own
    comments give their ordinals ([#15], [#14], [#19], [#17], [#16]). *)
Definition chr (n : nat) : string := String (ascii_of_nat n) EmptyString.

Definition SSTART : string := chr 15.
Definition SRELOAD : string := chr 14.
Definition SRESET : string := chr 19.
Definition SSHUTD : string := chr 17.
Definition PSHUTD : string := chr 16.

(** [ord(operation)]: defined on strings of length one only. *)
Definition ord (s : string) : M nat :=
  match s with
  | String c EmptyString => ret (nat_of_ascii c)
  | _ => raise (TypeError "ord() expected a character")
  end.

(** [str(pid)] of an integer, and of a possibly-[None] attribute. *)
Definition str_int (z : Z) : string := NilZero.string_of_int (Z.to_int z).

Definition str_pid (p : option Z) : string :=
  match p with
  | Some z => str_int z
  | None => "None"
  end.

Section AMPServerProtocol.
Context {C : Collaborators}.

(** [getenv()]: the current environment plus [PYTHONPATH]. *)
Definition getenv : environ :=
  let sep := if String.eqb os_name "nt" then ";" else ":" in
  <["PYTHONPATH" := String.concat sep sys_path]> os_environ.

(** The call [Popen(cmd, env=..., stdout=PIPE, ...)], which either hands
    back a process or raises. *)
Definition Popen_call (cmd : option command) (env : environ) : M (Z * string) :=
  fun st =>
    let st' := emit_to (EvPopen cmd env) st in
    match Popen (trace st) cmd env with
    | Launched pid out => (Return (pid, out), st')
    | LaunchFailed e => (Raise e, st')
    end.

(** [AMPServerProtocol.start_server] *)
Definition start_server (self : conn) (cmd : option command) : M Z :=
  r <~ try (Popen_call cmd getenv);
  match r with
  | inl e =>
      modify (set_server_process_id None);;;
      emit (EvLogTrace e);;;
      ret 0
  | inr (pid, out) =>
      emit (EvLogServer out);;;
      modify (set_server_process_id (Some pid));;;
      modify (set_server_twistd_cmd cmd);;;
      ret pid
  end.

(** [AMPServerProtocol.wait_for_disconnect]:
    [self.factory.disconnect_callbacks[self] = (callback, args, kwargs)] *)
Definition wait_for_disconnect (self : conn) (cb : callback) : M unit :=
  modify (fun st => set_disconnect_callbacks (<[self := cb]> (disconnect_callbacks st)) st).

(** [self.factory.disconnect_callbacks.pop(self, (None, None, None))] *)
Definition pop_disconnect_callback (self : conn) : M (option callback) :=
  fun st =>
    (Return (disconnect_callbacks st !! self),
     set_disconnect_callbacks (delete self (disconnect_callbacks st)) st).

(** [self.factory.portal.shutdown(restart=...)]: the call is recorded
    with its [restart] flag; what it does to the Portal is the
    environment's [Portal_shutdown]. *)
Definition portal_shutdown (restart : bool) : M unit :=
  emit (EvPortalShutdown restart);;;
  Portal_shutdown restart.

(** Calling the stored callable on its stored arguments. *)
Definition run_callback (cb : callback) : M unit :=
  match cb with
  | cb_start_server self cmd => _ <~ start_server self cmd; ret tt
  | cb_portal_shutdown restart => portal_shutdown restart
  | cb_other f => call_other f
  end.

(** [AMPServerProtocol.connectionLost] *)
Definition connectionLost (self : conn) : M unit :=
  entry <~ pop_disconnect_callback self;
  match entry with
  | Some cb =>
      r <~ try (run_callback cb);
      match r with
      | inl e => emit (EvLogTrace e)
      | inr _ => ret tt
      end
  | None => ret tt
  end.

(** [AMPServerProtocol.send_AdminPortal2Server]: hands the box to
    [data_out], which is not in this file. *)
Definition send_AdminPortal2Server (sessid : Z) (operation : string) (kw : kwargs) : M unit :=
  emit (EvSendAdminPortal2Server sessid operation kw).

(** [AMPServerProtocol.stop_server] *)
Definition stop_server (self : conn) (mode : string) : M unit :=
  if String.eqb mode "reload" then send_AdminPortal2Server DUMMYSESSION SRELOAD ∅
  else if String.eqb mode "reset" then send_AdminPortal2Server DUMMYSESSION SRESET ∅
  else if String.eqb mode "shutdown" then send_AdminPortal2Server DUMMYSESSION SSHUTD ∅
  else ret tt.

(** [self.factory.server_connection and
     self.factory.server_connection.transport.connected], as a truth value. *)
Definition server_connected (st : State) : bool :=
  match server_connection st with
  | Some c => bool_decide (c ∈ transport_connected st)
  | None => false
  end.

(** The reply dictionaries of the launcher responder. *)
Definition _retval (success : bool) (txt : string) : gmap string string :=
  {[ "result" := dumps success txt ]}.

Definition fallback : gmap string string := {[ "result" := "" ]}.

(** Reading a local name that no statement on the path has bound. *)
Definition unbound_local {A} (name : string) : M A :=
  raise (UnboundLocalError name).

(** [amp.loads(arguments)] as a step of a method: it gives the command
    or raises, and touches nothing. *)
Definition amp_loads (blob : string) : M command :=
  fun st => (loads blob, st).

(** [AMPServerProtocol.portal_receive_launcher2portal] (the body under
    the decorators). *)
Definition portal_receive_launcher2portal
    (self : conn) (operation arguments : string) : M (gmap string string) :=
  connected <~ gets server_connected;
  server_pid <~ gets server_process_id;
  code <~ ord operation;
  emit (EvLogMsg (LogOperation code));;;
  logged <~ amp_loads arguments;
  emit (EvLogMsg (LogArguments logged));;;
  if String.eqb operation SSTART then
    if connected then
      ret (_retval false ("Server already running at PID=" ++ str_pid server_pid))
    else
      cmd <~ amp_loads arguments;
      spid <~ start_server self (Some cmd);
      ret (_retval true ("Server started with PID " ++ str_int spid ++ "."))
  else if String.eqb operation SRELOAD then
    if connected then
      stop_server self "reload";;;
      ret fallback
    else
      cmd <~ amp_loads arguments;
      spid <~ start_server self (Some cmd);
      ret (_retval true ("Server started with PID " ++ str_int spid ++ "."))
  else if String.eqb operation SRESET then
    if connected then
      stop_server self "reset";;;
      spid <~ unbound_local "spid";
      ret (_retval true ("Server restarted with PID " ++ str_int spid ++ "."))
    else
      cmd <~ amp_loads arguments;
      spid <~ start_server self (Some cmd);
      ret (_retval true ("Server started with PID " ++ str_int spid ++ "."))
  else if String.eqb operation SSHUTD then
    if connected then
      stop_server self "shutdown";;;
      ret (_retval true "Server stopped.")
    else
      ret (_retval false "Server not running")
  else if String.eqb operation PSHUTD then
    if connected then
      stop_server self "shutdown";;;
      ret (_retval true "Server stopped.")
    else
      portal_shutdown false;;;
      ret fallback
  else
    raise (Exception_ ("operation " ++ operation ++ " not recognized.")).

(** [str(operation)] inside the error message. *)
Definition str_pyval (v : pyval) : string :=
  match v with
  | PyNone => "None"
  | PyBool true => "True"
  | PyBool false => "False"
  | PyStr s => s
  end.

(** [kwargs.pop("operation")] *)
Definition pop_operation (kw : kwargs) : M (pyval * kwargs) :=
  match kw !! "operation" with
  | Some v => ret (v, delete "operation" kw)
  | None => raise (KeyError "operation")
  end.

(** [self.factory.server_connection.wait_for_disconnect(...)] *)
Definition server_connection_wait_for_disconnect (cb : callback) : M unit :=
  sc <~ gets server_connection;
  match sc with
  | Some c => wait_for_disconnect c cb
  | None => raise (AttributeError "wait_for_disconnect")
  end.

(** [portal_sessionhandler.get(sessid)], as a truth value. *)
Definition session_known (sessid : Z) : M bool :=
  gets (fun st => bool_decide (sessid ∈ sessions st)).

(** The branches of [portal_receive_adminserver2portal] after the
    connection has been stored. *)
Definition admin_dispatch
    (self : conn) (sessid : Z) (operation : pyval) (kw : kwargs) : M (gmap string string) :=
  let op_is op := bool_decide (operation = PyStr op) in
  if op_is SLOGIN then
    known <~ session_known sessid;
    (if known then emit (EvSessions (server_logged_in sessid (kw !! "sessiondata")))
     else ret tt);;;
    ret ∅
  else if op_is SDISCONN then
    known <~ session_known sessid;
    (if known then emit (EvSessions (server_disconnect sessid (kw !! "reason")))
     else ret tt);;;
    ret ∅
  else if op_is SDISCONNALL then
    emit (EvSessions (server_disconnect_all (kw !! "reason")));;;
    ret ∅
  else if op_is SRELOAD then
    cmd <~ gets server_twistd_cmd;
    server_connection_wait_for_disconnect (cb_start_server self cmd);;;
    stop_server self "reload";;;
    ret ∅
  else if op_is SRESET then
    cmd <~ gets server_twistd_cmd;
    server_connection_wait_for_disconnect (cb_start_server self cmd);;;
    stop_server self "reset";;;
    ret ∅
  else if op_is SSHUTD then
    stop_server self "shutdown";;;
    ret ∅
  else if op_is PSHUTD then
    server_connection_wait_for_disconnect (cb_portal_shutdown false);;;
    stop_server self "shutdown";;;
    ret ∅
  else if op_is PSYNC then
    emit (EvSessions get_all_sync_data);;;
    sessdata <~ gets (fun st => sync_data_of (sessions st));
    send_AdminPortal2Server DUMMYSESSION PSYNC {[ "sessiondata" := sessdata ]};;;
    emit (EvSessions at_server_connection);;;
    ret ∅
  else if op_is SSYNC then
    emit (EvSessions (server_session_sync (kw !! "sessiondata")
                        (default (PyBool true) (kw !! "clean"))));;;
    modify (set_server_restart_mode true);;;
    ret ∅
  else if op_is SCONN then
    emit (EvSessions (server_connect kw));;;
    ret ∅
  else
    raise (Exception_ ("operation " ++ str_pyval operation ++ " not recognized.")).

(** [AMPServerProtocol.portal_receive_adminserver2portal] (the body under
    the decorators). *)
Definition portal_receive_adminserver2portal
    (self : conn) (packed_data : string) : M (gmap string string) :=
  let '(sessid, kw) := data_in packed_data in
  popped <~ pop_operation kw;
  let '(operation, kw) := popped in
  modify (set_server_connection (Some self));;;
  admin_dispatch self sessid operation kw.

End AMPServerProtocol.

(** ** A concrete environment

    A POSIX host on which only the command [["run-core"]] can be launched
    (it gets pid 101) and every blob decodes; [Portal.shutdown] returns at
    once.  Foreign callable number 0 raises an [Exception], number 1
    raises [SystemExit], number 2 writes a log line and registers itself
    again for protocol 2, the others do nothing. *)
Definition posix_env : Collaborators := {|
  SLOGIN := chr 4;
  SDISCONN := chr 5;
  SDISCONNALL := chr 6;
  PSYNC := chr 3;
  SSYNC := chr 8;
  SCONN := chr 11;
  DUMMYSESSION := 0;
  dumps := fun success txt => (if success then "(True, " else "(False, ") ++ txt ++ ")";
  loads := fun blob => Return [blob];
  data_in := fun packed => (7, {[ "operation" := PyStr packed ]});
  os_name := "posix";
  os_environ := {[ "HOME" := "/home/evennia" ]};
  sys_path := ["/srv/game"; "/srv/evennia"];
  Popen := fun _ cmd _ =>
    match cmd with
    | Some ["run-core"] => Launched 101 "Server starting"
    | _ => LaunchFailed (OSError_ 2)
    end;
  sync_data_of := fun _ => PyNone;
  Portal_shutdown := fun _ => ret tt;
  call_other := fun f =>
    if N.eqb f 0 then raise (OtherError 0)
    else if N.eqb f 1 then raise (SystemExit_ 0)
    else if N.eqb f 2 then
      emit (EvLogServer "fired");;;
      wait_for_disconnect 2%positive (cb_other 2)
    else ret tt
|}.

(** No Server process, no connection. *)
Definition idle_state : State :=
  mkState None None None ∅ false ∅ ∅ [].

(** The Server runs at PID 100, was started with [["run-core"]], and is
    connected as protocol 2. *)
Definition running_state : State :=
  mkState (Some 100) (Some ["run-core"]) (Some 2%positive) ∅ false {[ 2%positive ]} ∅ [].

(** The operation codes the launcher responder has a branch for. *)
Definition launcher_operations : list string :=
  [SSTART; SRELOAD; SRESET; SSHUTD; PSHUTD].

(** The state in which a popped callback runs: the entry for [self] is
    already gone. *)
Definition popped (self : conn) (st : State) : State :=
  set_disconnect_callbacks (delete self (disconnect_callbacks st)) st.

(** What [connectionLost] makes of the callback's result: a raised
    instance of [Exception] becomes a logged traceback, anything else
    that was raised goes on. *)
Definition swallowed (r : outcome unit * State) : outcome unit * State :=
  match r with
  | (Return _, st) => (Return tt, st)
  | (Raise (Exc e), st) => (Return tt, emit_to (EvLogTrace e) st)
  | (Raise b, st) => (Raise b, st)
  end.

(** A callback that leaves [factory.disconnect_callbacks] as it found it. *)
Definition runs_without_registering `{Collaborators} (cb : callback) : Prop :=
  forall st, disconnect_callbacks (run_callback cb st).2 = disconnect_callbacks st.

(** A method that leaves the observation [f] of the state as it was,
    whether it returns or raises. *)
Definition preserves {X A} (f : State -> X) (m : M A) : Prop :=
  forall st, f (m st).2 = f st.

(** The two protocols of the scenarios: the launcher's and the Server's. *)
Definition launcher : conn := 1%positive.
Definition server : conn := 2%positive.

(** ** Further definitions *)

(** The operation codes the server responder has a branch for, in the
    order in which it tests them. *)
Definition admin_operations `{Collaborators} : list string :=
  [SLOGIN; SDISCONN; SDISCONNALL; SRELOAD; SRESET; SSHUTD; PSHUTD; PSYNC; SSYNC; SCONN].

(** The launcher operations that may start the Server. *)
Definition spawning_operations : list string := [SSTART; SRELOAD; SRESET].

(** The modes [stop_server] knows. *)
Definition stop_modes : list string := ["reload"; "reset"; "shutdown"].

(** The commands handed to [Popen] so far, oldest first. *)
Definition launch_of (ev : event) : option (option command) :=
  match ev with
  | EvPopen cmd _ => Some cmd
  | _ => None
  end.

Definition launches (st : State) : list (option command) :=
  omap launch_of (trace st).

(** The ordinal the launcher responder logs for a one-character operation. *)
Definition logged_code (operation : string) : nat :=
  match operation with
  | String c _ => nat_of_ascii c
  | EmptyString => 0
  end.

(** The state once the launcher responder has written its first log
    line, and once it has written both. *)
Definition after_first_log (operation : string) (st : State) : State :=
  emit_to (EvLogMsg (LogOperation (logged_code operation))) st.

Definition after_log_lines (operation : string) (cmd : command) (st : State) : State :=
  emit_to (EvLogMsg (LogArguments cmd)) (after_first_log operation st).

(** The only occasion on which the launcher responder calls
    [portal.shutdown] itself: shutdown-all with no Server connected. *)
Definition calls_portal_shutdown (operation : string) (st : State) : Prop :=
  operation = PSHUTD /\ server_connected st = false.

(** The attributes that say which connections exist and what waits for
    them to close. *)
Definition connection_state (st : State) :=
  (server_connection st, disconnect_callbacks st, transport_connected st,
   server_restart_mode st, sessions st).

(** The process record together with the launches made so far. *)
Definition process_state (st : State) :=
  (launches st, server_process_id st, server_twistd_cmd st, transport_connected st).

(** What [portal_receive_status] needs from outside: [os.getpid()] and
    [amp.dumps] on the status tuple. *)
Class StatusCollaborators := {
  getpid : Z;
  dumps_status : bool -> bool -> Z -> option Z -> string
}.

(** [AMPServerProtocol.portal_receive_status] (the body under the
    decorators); [status] is not used. *)
Definition portal_receive_status `{StatusCollaborators}
    (self : conn) (status : string) : M (gmap string string) :=
  connected <~ gets server_connected;
  server_pid <~ gets server_process_id;
  let portal_pid := getpid in
  if connected then
    ret {[ "status" := dumps_status true true portal_pid server_pid ]}
  else
    ret {[ "status" := dumps_status true false portal_pid server_pid ]}.

(** A Portal running as process 4242. *)
Definition posix_status : StatusCollaborators := {|
  getpid := 4242;
  dumps_status := fun p s ppid spid =>
    (if p then "(True, " else "(False, ") ++ (if s then "True, " else "False, ")
    ++ str_int ppid ++ ", " ++ str_pid spid ++ ")"
|}.

(** The same host as [posix_env], with admin packets that carry session
    data and a host name; the empty packet decodes to keyword arguments
    without an operation, and the empty launcher blob cannot be decoded
    ([EOFError]). *)
Definition wire_env : Collaborators := {|
  SLOGIN := chr 4;
  SDISCONN := chr 5;
  SDISCONNALL := chr 6;
  PSYNC := chr 3;
  SSYNC := chr 8;
  SCONN := chr 11;
  DUMMYSESSION := 0;
  dumps := @dumps posix_env;
  loads := fun blob => if String.eqb blob "" then Raise EOFError_ else Return [blob];
  data_in := fun packed =>
    (7, if String.eqb packed ""
        then {[ "reason" := PyStr "idle" ]}
        else {[ "operation" := PyStr packed;
                "sessiondata" := PyStr "blob";
                "host" := PyStr "irc.example.org" ]});
  os_name := "posix";
  os_environ := @os_environ posix_env;
  sys_path := @sys_path posix_env;
  Popen := @Popen posix_env;
  sync_data_of := fun _ => PyNone;
  Portal_shutdown := @Portal_shutdown posix_env;
  call_other := @call_other posix_env
|}.

(** The running Portal of [running_state] with a shutdown pending for the
    launcher's connection and a re-spawn pending for the Server's. *)
Definition pending_state : State :=
  set_disconnect_callbacks
    {[ launcher := cb_portal_shutdown false;
       server := cb_start_server server (Some ["run-core"]) ]}
    running_state.

(** * Properties *)

Section Properties.
Context {C : Collaborators}.

(** ** The monad and the state *)

Lemma set_disconnect_callbacks_id st :
  set_disconnect_callbacks (disconnect_callbacks st) st = st.
Proof. by destruct st. Qed.

Lemma popped_absent self st :
  disconnect_callbacks st !! self = None -> popped self st = st.
Proof.
  intros Hnone. unfold popped.
  rewrite delete_id by exact Hnone. apply set_disconnect_callbacks_id.
Qed.

Section Preservation.
Context {X : Type} (f : State -> X).

Lemma preserves_ret {A} (a : A) : preserves f (ret a).
Proof. by intros st. Qed.

Lemma preserves_raise {A} e : preserves f (@raise A e).
Proof. by intros st. Qed.

Lemma preserves_gets {A} (g : State -> A) : preserves f (gets g).
Proof. by intros st. Qed.

Lemma preserves_modify g : (forall st, f (g st) = f st) -> preserves f (modify g).
Proof. intros Hg st. apply Hg. Qed.

Lemma preserves_bind {A B} (m : M A) (k : A -> M B) :
  preserves f m -> (forall a, preserves f (k a)) -> preserves f (bind m k).
Proof.
  intros Hm Hk st. unfold bind.
  specialize (Hm st). destruct (m st) as [[a|e] st']; simpl in *.
  - by rewrite Hk.
  - done.
Qed.

Lemma preserves_try {A} (m : M A) : preserves f m -> preserves f (try m).
Proof.
  intros Hm st. unfold try.
  specialize (Hm st). by destruct (m st) as [[a|[e| | |]] st'].
Qed.

End Preservation.

Create HintDb preserves.
#[local] Hint Resolve preserves_ret preserves_raise preserves_gets
  preserves_bind preserves_try : preserves.
#[local] Hint Extern 1 (preserves _ (modify _)) =>
  apply preserves_modify; intros; reflexivity : preserves.
#[local] Hint Extern 1 (preserves _ (emit _)) =>
  apply preserves_modify; intros; reflexivity : preserves.
#[local] Hint Extern 2 (preserves _ (if ?b then _ else _)) => destruct b : preserves.
#[local] Hint Extern 2 (preserves _ (match ?o with Some _ => _ | None => _ end)) =>
  destruct o : preserves.
#[local] Hint Extern 3 (forall _, preserves _ _) => intro : preserves.

Ltac preserving := eauto 20 with preserves.

Lemma eqb_string_false (a b : string) : a <> b -> String.eqb a b = false.
Proof. intros Hne. by apply String.eqb_neq. Qed.

(** ** [start_server] *)

Lemma start_server_unfold self cmd st :
  start_server self cmd st =
  match Popen (trace st) cmd getenv with
  | Launched pid out =>
      (Return pid,
       set_server_twistd_cmd cmd
         (set_server_process_id (Some pid)
            (emit_to (EvLogServer out) (emit_to (EvPopen cmd getenv) st))))
  | LaunchFailed e =>
      (Return 0,
       emit_to (EvLogTrace e)
         (set_server_process_id None (emit_to (EvPopen cmd getenv) st)))
  end.
Proof.
  unfold start_server, bind, try, Popen_call.
  destruct (Popen (trace st) cmd getenv); reflexivity.
Qed.

Lemma start_server_returns self cmd st :
  exists pid st', start_server self cmd st = (Return pid, st').
Proof.
  rewrite start_server_unfold.
  destruct (Popen (trace st) cmd getenv); eauto.
Qed.

Lemma start_server_keeps_registry self cmd st :
  disconnect_callbacks (start_server self cmd st).2 = disconnect_callbacks st.
Proof.
  rewrite start_server_unfold.
  destruct (Popen (trace st) cmd getenv); reflexivity.
Qed.

Lemma cb_start_server_no_registering self cmd :
  runs_without_registering (cb_start_server self cmd).
Proof.
  intros st. simpl. unfold bind.
  pose proof (start_server_keeps_registry self cmd st) as Hkeep.
  destruct (start_server self cmd st) as [[pid|e] st']; exact Hkeep.
Qed.

(** C8: when the launch raises, [start_server] returns 0 to its caller,
    [server_process_id] is reset to [None] and [server_twistd_cmd] (like
    every other attribute) keeps the value it had; the failure is logged. *)
Theorem start_server_failure self cmd st e :
  Popen (trace st) cmd getenv = LaunchFailed e ->
  exists st',
    start_server self cmd st = (Return 0, st') /\
    server_process_id st' = None /\
    server_twistd_cmd st' = server_twistd_cmd st /\
    server_connection st' = server_connection st /\
    disconnect_callbacks st' = disconnect_callbacks st /\
    trace st' = (trace st ++ [EvPopen cmd getenv; EvLogTrace e])%list.
Proof.
  intros Hfail. eexists. split.
  - rewrite start_server_unfold, Hfail. reflexivity.
  - simpl. rewrite <- app_assoc. auto.
Qed.

(** ** The disconnect registry *)

Lemma connectionLost_unfold self st :
  connectionLost self st =
  match disconnect_callbacks st !! self with
  | Some cb => swallowed (run_callback cb (popped self st))
  | None => (Return tt, popped self st)
  end.
Proof.
  unfold connectionLost, bind, pop_disconnect_callback, try, swallowed, popped.
  destruct (disconnect_callbacks st !! self) as [cb|]; [|reflexivity].
  destruct (run_callback cb _) as [[[]|[e| | |]] st']; reflexivity.
Qed.

Lemma connectionLost_nothing_registered self st :
  disconnect_callbacks st !! self = None ->
  connectionLost self st = (Return tt, st).
Proof.
  intros Hnone. rewrite connectionLost_unfold, Hnone.
  by rewrite popped_absent.
Qed.

Lemma swallowed_registry r :
  disconnect_callbacks (swallowed r).2 = disconnect_callbacks r.2.
Proof. destruct r as [[[]|[e| | |]] st]; reflexivity. Qed.


(** C9 (amended): an instance of [Exception] raised by the disconnect
    action is caught inside [connectionLost], logged as a traceback, and
    goes no further: [connectionLost] then returns normally, as it does
    when the action returns or nothing is registered.  What the action
    raises outside [Exception] ([SystemExit], [KeyboardInterrupt],
    [GeneratorExit]) is not caught by [except Exception]: it leaves
    [connectionLost] unlogged, the entry being already removed. *)
Theorem connectionLost_swallows_action_errors self st :
  (disconnect_callbacks st !! self = None ->
   connectionLost self st = (Return tt, st)) /\
  (forall cb r st',
     disconnect_callbacks st !! self = Some cb ->
     run_callback cb (popped self st) = (Return r, st') ->
     connectionLost self st = (Return tt, st')) /\
  (forall cb (e : exn) st',
     disconnect_callbacks st !! self = Some cb ->
     run_callback cb (popped self st) = (Raise (Exc e), st') ->
     connectionLost self st = (Return tt, emit_to (EvLogTrace e) st')) /\
  (forall cb b st',
     disconnect_callbacks st !! self = Some cb ->
     run_callback cb (popped self st) = (Raise b, st') ->
     (forall e, b <> Exc e) ->
     connectionLost self st = (Raise b, st')).
Proof.
  split; [apply connectionLost_nothing_registered|].
  split; [|split].
  - intros cb r st' Hreg Hrun. by rewrite connectionLost_unfold, Hreg, Hrun.
  - intros cb e st' Hreg Hrun. by rewrite connectionLost_unfold, Hreg, Hrun.
  - intros cb b st' Hreg Hrun Hbase. rewrite connectionLost_unfold, Hreg, Hrun.
    destruct b as [e| | |]; [by destruct (Hbase e)|reflexivity..].
Qed.

(** ** The launcher responder *)

(** C6 (amended): [start] while the Server connection is open launches
    nothing and leaves the Portal's process record and the callback
    registry as they were, whatever the arguments blob is.  When the blob
    decodes, the reply is [(False, "Server already running at PID=...")]
    with the stored process id, and only the two log lines were written;
    when it does not, [amp.loads] raises after the first log line and
    there is no reply. *)
Theorem start_while_connected self arguments st :
  server_connected st = true ->
  let after := portal_receive_launcher2portal self SSTART arguments st in
  launches after.2 = launches st /\
  server_process_id after.2 = server_process_id st /\
  server_twistd_cmd after.2 = server_twistd_cmd st /\
  disconnect_callbacks after.2 = disconnect_callbacks st /\
  (forall cmd, loads arguments = Return cmd ->
     after =
       (Return (_retval false
                  ("Server already running at PID=" ++ str_pid (server_process_id st))),
        emit_to (EvLogMsg (LogArguments cmd)) (emit_to (EvLogMsg (LogOperation 15)) st))) /\
  (forall b, loads arguments = Raise b ->
     after = (Raise b, emit_to (EvLogMsg (LogOperation 15)) st)).
Proof.
  intros Hconn after. subst after.
  unfold portal_receive_launcher2portal, bind, gets, amp_loads. rewrite Hconn. simpl.
  destruct (loads arguments) as [cmd|b]; simpl;
    (split; [unfold launches; simpl; rewrite !omap_app; simpl; by rewrite !app_nil_r|]);
    repeat (split; [reflexivity|]);
    split; intros x Heq; inversion Heq; subst; reflexivity.
Qed.

(** C5 (amended): for a one-byte operation code outside the five the
    responder knows, the responder never returns a reply.  When the
    arguments blob decodes it raises [Exception("operation ... not
    recognized.")] after its two log lines; when it does not, [amp.loads]
    raises after the first.  Either way nothing was launched, nothing
    was sent, no transport was closed and the Portal's records are as
    before. *)
Theorem unrecognized_operation_raises self c arguments st :
  String c EmptyString ∉ launcher_operations ->
  portal_receive_launcher2portal self (String c EmptyString) arguments st =
    match loads arguments with
    | Return cmd =>
        (Raise (Exception_ ("operation " ++ String c EmptyString ++ " not recognized.")),
         emit_to (EvLogMsg (LogArguments cmd))
           (emit_to (EvLogMsg (LogOperation (nat_of_ascii c))) st))
    | Raise b =>
        (Raise b, emit_to (EvLogMsg (LogOperation (nat_of_ascii c))) st)
    end.
Proof.
  unfold launcher_operations. intros Hout.
  repeat (apply not_elem_of_cons in Hout as [? Hout]).
  unfold portal_receive_launcher2portal, bind, gets, ord, ret, emit, modify, amp_loads.
  rewrite !eqb_string_false by assumption.
  destruct (loads arguments); reflexivity.
Qed.

(** ** The server responder *)

Lemma stop_server_preserves {X} (f : State -> X) self mode :
  (forall ev st, f (emit_to ev st) = f st) -> preserves f (stop_server self mode).
Proof.
  intros Hemit. unfold stop_server, send_AdminPortal2Server.
  repeat (destruct (String.eqb mode _); [by apply preserves_modify|]).
  preserving.
Qed.

Lemma admin_dispatch_server_connection self sessid operation kw :
  preserves server_connection (admin_dispatch self sessid operation kw).
Proof.
  pose proof (stop_server_preserves server_connection self) as Hstop.
  unfold admin_dispatch, session_known, server_connection_wait_for_disconnect,
    wait_for_disconnect, send_AdminPortal2Server.
  repeat (case_bool_decide; [preserving|]).
  preserving.
Qed.

(** C10: an admin message that carries an operation code, whatever the
    code is and whether or not a branch exists for it, leaves
    [factory.server_connection] pointing at the protocol that received
    it; the reference stored before plays no part in what the responder
    does, so the last sender always wins. *)
Theorem admin_message_marks_server_connection self packed_data operation st :
  (data_in packed_data).2 !! "operation" = Some operation ->
  server_connection (portal_receive_adminserver2portal self packed_data st).2 = Some self /\
  forall previous,
    portal_receive_adminserver2portal self packed_data (set_server_connection previous st) =
    portal_receive_adminserver2portal self packed_data st.
Proof.
  intros Hop. unfold portal_receive_adminserver2portal.
  destruct (data_in packed_data) as [sessid kw]. simpl in Hop.
  unfold bind, pop_operation. rewrite Hop. simpl.
  split.
  - apply (admin_dispatch_server_connection self sessid operation
             (delete "operation" kw) (set_server_connection (Some self) st)).
  - intros previous. reflexivity.
Qed.

(** ** Further properties: environment, launching and stopping *)

(** X1: the environment given to the Server always has [PYTHONPATH], set
    to [sys.path] joined with [;] on Windows and [:] elsewhere (replacing
    any inherited value); every other variable is inherited unchanged and
    no variable is lost. *)
Theorem getenv_lookup :
  getenv !! "PYTHONPATH"
    = Some (String.concat (if String.eqb os_name "nt" then ";" else ":") sys_path) /\
  (forall k, k <> "PYTHONPATH" -> getenv !! k = os_environ !! k) /\
  dom getenv = {[ "PYTHONPATH" ]} ∪ dom os_environ.
Proof.
  unfold getenv. split; [|split].
  - apply lookup_insert_eq.
  - intros k Hk. by apply lookup_insert_ne.
  - apply dom_insert_L.
Qed.

Lemma launches_emit_to ev st :
  launches (emit_to ev st) = (launches st ++ option_list (launch_of ev))%list.
Proof.
  unfold launches. simpl. rewrite omap_app. simpl.
  by destruct (launch_of ev).
Qed.

Lemma start_server_launched self cmd st pid out :
  Popen (trace st) cmd getenv = Launched pid out ->
  start_server self cmd st =
    (Return pid,
     set_server_twistd_cmd cmd
       (set_server_process_id (Some pid)
          (emit_to (EvLogServer out) (emit_to (EvPopen cmd getenv) st)))).
Proof. intros Hok. by rewrite start_server_unfold, Hok. Qed.

Lemma start_server_one_launch self cmd st :
  exists r st',
    start_server self cmd st = (Return r, st') /\
    disconnect_callbacks st' = disconnect_callbacks st /\
    launches st' = (launches st ++ [cmd])%list.
Proof.
  rewrite start_server_unfold.
  destruct (Popen (trace st) cmd getenv) as [pid out|e]; do 2 eexists;
    (split; [reflexivity|]); (split; [reflexivity|]);
    unfold launches; simpl; rewrite !omap_app; simpl; by rewrite <- app_assoc.
Qed.

(** X2: when the launch succeeds, [start_server] returns the new pid,
    stores it together with the command it was given, and logs the early
    output of the process; the connection attributes are untouched. *)
Theorem start_server_success self cmd st pid out :
  Popen (trace st) cmd getenv = Launched pid out ->
  exists st',
    start_server self cmd st = (Return pid, st') /\
    server_process_id st' = Some pid /\
    server_twistd_cmd st' = cmd /\
    connection_state st' = connection_state st /\
    trace st' = (trace st ++ [EvPopen cmd getenv; EvLogServer out])%list.
Proof.
  intros Hok. eexists. split.
  - by apply start_server_launched.
  - simpl. rewrite <- app_assoc. auto.
Qed.

(** X3: [start_server] never raises and makes exactly one launch attempt;
    afterwards the process record is consistent: either no pid is stored,
    0 was returned and the cached command is the old one, or the returned
    pid is stored with the command just used.  It never touches the
    connection attributes. *)
Theorem start_server_record_consistent self cmd st :
  exists r st',
    start_server self cmd st = (Return r, st') /\
    (server_process_id st' = None /\ r = 0 /\ server_twistd_cmd st' = server_twistd_cmd st
     \/ server_process_id st' = Some r /\ server_twistd_cmd st' = cmd) /\
    connection_state st' = connection_state st /\
    launches st' = (launches st ++ [cmd])%list.
Proof.
  rewrite start_server_unfold.
  destruct (Popen (trace st) cmd getenv) as [pid out|e]; do 2 eexists;
    (split; [reflexivity|]); (split; [auto|]); (split; [reflexivity|]).
  - unfold launches. simpl. rewrite !omap_app. simpl. by rewrite <- app_assoc.
  - unfold launches. simpl. rewrite !omap_app. simpl. by rewrite <- app_assoc.
Qed.

(** X4: [stop_server] with a mode other than ['reload'], ['reset'] and
    ['shutdown'] sends nothing and changes nothing; it does not raise. *)
Theorem stop_server_unknown_mode self mode st :
  mode ∉ stop_modes ->
  stop_server self mode st = (Return tt, st).
Proof.
  unfold stop_modes. intros Hout.
  repeat (apply not_elem_of_cons in Hout as [? Hout]).
  unfold stop_server. by rewrite !eqb_string_false.
Qed.

(** X5: closing one connection does not disturb what is registered for
    another: the other connection's entry is still there afterwards, as
    long as the action fired (if any) does not register anything itself. *)
Theorem connectionLost_other_connection a b st :
  a <> b ->
  (forall cb, disconnect_callbacks st !! a = Some cb -> runs_without_registering cb) ->
  disconnect_callbacks (connectionLost a st).2 !! b = disconnect_callbacks st !! b.
Proof.
  intros Hab Hquiet. rewrite connectionLost_unfold.
  destruct (disconnect_callbacks st !! a) as [cb|] eqn:Hreg.
  - rewrite swallowed_registry, (Hquiet cb eq_refl). simpl.
    by apply lookup_delete_ne.
  - simpl. by apply lookup_delete_ne.
Qed.

(** ** Further properties: the launcher responder *)

Lemma launcher_spawn_branch self operation arguments cmd st :
  operation ∈ spawning_operations ->
  server_connected st = false ->
  loads arguments = Return cmd ->
  portal_receive_launcher2portal self operation arguments st =
  bind (start_server self (Some cmd))
       (fun spid => ret (_retval true ("Server started with PID " ++ str_int spid ++ ".")))
       (after_log_lines operation cmd st).
Proof.
  unfold spawning_operations. intros Hop Hdown Hload.
  repeat (apply elem_of_cons in Hop as [->|Hop]);
    [| | | by apply elem_of_nil in Hop];
    unfold portal_receive_launcher2portal, bind, gets, amp_loads;
    rewrite Hdown, Hload; reflexivity.
Qed.

(** X6: with no Server connected and a blob that decodes, [start],
    [reload] and [reset] from the launcher all do the same thing: launch
    the command carried by the message.  When the launch succeeds the
    reply is [(True, "Server started with PID <pid>.")], and the pid and
    that command are stored for later restarts. *)
Theorem launcher_spawns_when_disconnected self operation arguments cmd st pid out :
  operation ∈ spawning_operations ->
  server_connected st = false ->
  loads arguments = Return cmd ->
  Popen (trace (after_log_lines operation cmd st)) (Some cmd) getenv = Launched pid out ->
  exists st',
    portal_receive_launcher2portal self operation arguments st =
      (Return (_retval true ("Server started with PID " ++ str_int pid ++ ".")), st') /\
    server_process_id st' = Some pid /\
    server_twistd_cmd st' = Some cmd /\
    launches st' = (launches st ++ [Some cmd])%list.
Proof.
  intros Hop Hdown Hload Hok.
  eexists. split; [|split; [|split]].
  - rewrite (launcher_spawn_branch _ _ _ cmd) by assumption.
    unfold bind. rewrite (start_server_launched _ _ _ _ _ Hok). reflexivity.
  - reflexivity.
  - reflexivity.
  - unfold launches, after_log_lines, after_first_log. simpl.
    rewrite !omap_app. simpl. by rewrite !app_nil_r.
Qed.

(** X7: [shutdown-core] from the launcher.  If the arguments blob does
    not decode, [amp.loads] raises after the first log line and nothing
    is sent.  Otherwise, with the Server connected the shutdown notice is
    sent and the reply is [(True, "Server stopped.")]; with no Server
    nothing is sent and the reply is [(False, "Server not running")].
    Nothing else happens in any case. *)
Theorem launcher_shutdown_core self arguments st :
  portal_receive_launcher2portal self SSHUTD arguments st =
  match loads arguments with
  | Raise b => (Raise b, after_first_log SSHUTD st)
  | Return cmd =>
      if server_connected st then
        (Return (_retval true "Server stopped."),
         emit_to (EvSendAdminPortal2Server DUMMYSESSION SSHUTD ∅)
           (after_log_lines SSHUTD cmd st))
      else
        (Return (_retval false "Server not running"), after_log_lines SSHUTD cmd st)
  end.
Proof.
  unfold portal_receive_launcher2portal, bind, gets, amp_loads.
  destruct (loads arguments), (server_connected st); reflexivity.
Qed.

(** X8: [shutdown-all] from the launcher with no Server connected.  If
    the arguments blob does not decode, [amp.loads] raises after the
    first log line and [portal.shutdown] is not called.  Otherwise
    [portal.shutdown(restart=False)] is called at once, after the two log
    lines; if it returns, the reply is the fallback dictionary
    [{"result": ""}], and what it raises goes on to the caller. *)
Theorem launcher_shutdown_all_disconnected self arguments st :
  server_connected st = false ->
  portal_receive_launcher2portal self PSHUTD arguments st =
  match loads arguments with
  | Raise b => (Raise b, after_first_log PSHUTD st)
  | Return cmd =>
      match Portal_shutdown false
              (emit_to (EvPortalShutdown false) (after_log_lines PSHUTD cmd st)) with
      | (Return _, st') => (Return fallback, st')
      | (Raise b, st') => (Raise b, st')
      end
  end.
Proof.
  intros Hdown. unfold portal_receive_launcher2portal, bind, gets, amp_loads.
  rewrite Hdown. destruct (loads arguments); reflexivity.
Qed.

(** X9: an operation that is not exactly one character makes [ord] raise
    [TypeError] before anything is logged or done: the state is the one
    the responder was entered with. *)
Theorem launcher_operation_not_a_character self operation arguments st :
  (forall c, operation <> String c EmptyString) ->
  portal_receive_launcher2portal self operation arguments st =
    (Raise (TypeError "ord() expected a character"), st).
Proof.
  intros Hshape. destruct operation as [|c [|c' rest]]; [reflexivity| |reflexivity].
  by destruct (Hshape c).
Qed.

Lemma start_server_connection_state self cmd :
  preserves connection_state (start_server self cmd).
Proof.
  intros st. rewrite start_server_unfold.
  destruct (Popen (trace st) cmd getenv); reflexivity.
Qed.

Lemma ord_preserves {X} (f : State -> X) operation : preserves f (ord operation).
Proof. destruct operation as [|c [|c' rest]]; by intros st. Qed.

Lemma amp_loads_preserves {X} (f : State -> X) blob : preserves f (amp_loads blob).
Proof. by intros st. Qed.

(** X10: except on the one path where it calls [portal.shutdown] itself
    (shutdown-all with no Server connected), the launcher responder
    leaves [factory.server_connection], the registry of disconnect
    callbacks, the open transports, the restart flag and the sessions as
    they were, whatever the operation and the outcome; in particular it
    never registers or fires a disconnect action. *)
Theorem launcher_keeps_connection_state self operation arguments st :
  ~ calls_portal_shutdown operation st ->
  connection_state (portal_receive_launcher2portal self operation arguments st).2
    = connection_state st.
Proof.
  intros Hquiet. destruct (decide (operation = PSHUTD)) as [->|Hother].
  - destruct (server_connected st) eqn:Hconn; [|by destruct Hquiet].
    unfold portal_receive_launcher2portal, bind, gets, amp_loads. rewrite Hconn.
    destruct (loads arguments); reflexivity.
  - clear Hquiet. revert st.
    change (preserves connection_state
              (portal_receive_launcher2portal self operation arguments)).
    pose proof (stop_server_preserves connection_state self) as Hstop.
    pose proof (start_server_connection_state self) as Hstart.
    pose proof (ord_preserves connection_state operation) as Hord.
    unfold portal_receive_launcher2portal, unbound_local, emit.
    rewrite (eqb_string_false operation PSHUTD Hother). cbv iota.
    repeat first
      [ apply preserves_ret | apply preserves_raise | apply preserves_gets
      | apply amp_loads_preserves
      | apply preserves_modify; intros; reflexivity
      | apply Hord | apply Hstart | apply Hstop; intros; reflexivity
      | apply preserves_bind; [|intro]
      | match goal with |- preserves _ (if ?b then _ else _) => destruct b end ].
Qed.

Lemma launches_quiet_event ev st :
  launch_of ev = None -> launches (emit_to ev st) = launches st.
Proof. intros Hq. rewrite launches_emit_to, Hq. apply app_nil_r. Qed.

Lemma stop_server_launches self mode : preserves launches (stop_server self mode).
Proof.
  unfold stop_server, send_AdminPortal2Server, emit.
  repeat (destruct (String.eqb mode _);
          [apply preserves_modify; intros; by apply launches_quiet_event|]).
  apply preserves_ret.
Qed.

Lemma launcher_quiet_operation self operation arguments :
  operation ∉ spawning_operations ->
  operation <> PSHUTD ->
  preserves launches (portal_receive_launcher2portal self operation arguments).
Proof.
  unfold spawning_operations. intros Hout Hother.
  repeat (apply not_elem_of_cons in Hout as [? Hout]).
  pose proof (stop_server_launches self) as Hstop.
  pose proof (ord_preserves launches operation) as Hord.
  unfold portal_receive_launcher2portal, unbound_local, emit.
  rewrite !eqb_string_false by assumption.
  rewrite (eqb_string_false operation PSHUTD Hother). cbv iota.
  repeat first
    [ apply preserves_ret | apply preserves_raise | apply preserves_gets
    | apply amp_loads_preserves
    | apply preserves_modify; intros; by apply launches_quiet_event
    | apply Hord | apply Hstop
    | apply preserves_bind; [|intro]
    | match goal with |- preserves _ (if ?b then _ else _) => destruct b end ].
Qed.

(** X11: except on the one path where it calls [portal.shutdown] itself
    (shutdown-all with no Server connected), the launcher responder
    hands a command to [Popen] exactly when the operation is [start],
    [reload] or [reset], no Server is connected and the arguments blob
    decodes, and then exactly once, with the decoded command; in every
    other case (including every failure) it launches nothing. *)
Theorem launcher_launches self operation arguments st :
  ~ calls_portal_shutdown operation st ->
  launches (portal_receive_launcher2portal self operation arguments st).2 =
  (launches st ++
   match loads arguments with
   | Return cmd =>
       if bool_decide (operation ∈ spawning_operations) && negb (server_connected st)
       then [Some cmd] else []
   | Raise _ => []
   end)%list.
Proof.
  intros Hquiet.
  destruct (decide (operation ∈ spawning_operations)) as [Hin|Hout].
  - rewrite (bool_decide_eq_true_2 _ Hin). simpl andb.
    destruct (loads arguments) as [cmd|b] eqn:Hload.
    + destruct (server_connected st) eqn:Hconn; simpl negb; cbv iota.
      * rewrite app_nil_r. unfold spawning_operations in Hin.
        repeat (apply elem_of_cons in Hin as [->|Hin]);
          [| | | by apply elem_of_nil in Hin];
          unfold portal_receive_launcher2portal, bind, gets, amp_loads;
          rewrite Hconn, Hload; simpl;
          by rewrite !launches_quiet_event.
      * rewrite (launcher_spawn_branch _ _ _ cmd) by assumption. unfold bind.
        destruct (start_server_one_launch self (Some cmd)
                    (after_log_lines operation cmd st))
          as (r & st' & Hrun & _ & Hl).
        rewrite Hrun. simpl. rewrite Hl. unfold after_log_lines, after_first_log.
        by rewrite !launches_quiet_event.
    + rewrite app_nil_r. unfold spawning_operations in Hin.
      repeat (apply elem_of_cons in Hin as [->|Hin]);
        [| | | by apply elem_of_nil in Hin];
        unfold portal_receive_launcher2portal, bind, gets, amp_loads;
        rewrite Hload; simpl;
        by rewrite !launches_quiet_event.
  - rewrite (bool_decide_eq_false_2 _ Hout). simpl andb. cbv iota.
    assert (Hnone : match loads arguments with
                    | Return _ | Raise _ => @nil (option (list string))
                    end = []) by (by destruct (loads arguments)).
    rewrite Hnone, app_nil_r. clear Hnone.
    destruct (decide (operation = PSHUTD)) as [->|Hother].
    + destruct (server_connected st) eqn:Hconn; [|by destruct Hquiet].
      unfold portal_receive_launcher2portal, bind, gets, amp_loads. rewrite Hconn.
      destruct (loads arguments); simpl; by rewrite !launches_quiet_event.
    + by apply launcher_quiet_operation.
Qed.

(** ** Further properties: the server responder *)

Lemma admin_unfold self packed_data sessid kw operation st :
  data_in packed_data = (sessid, kw) ->
  kw !! "operation" = Some operation ->
  portal_receive_adminserver2portal self packed_data st =
  admin_dispatch self sessid operation (delete "operation" kw)
    (set_server_connection (Some self) st).
Proof.
  intros Hin Hop. unfold portal_receive_adminserver2portal.
  rewrite Hin. unfold bind, pop_operation. rewrite Hop. reflexivity.
Qed.

(** Picks the branch of [admin_dispatch] for a code of [admin_operations],
    given that the codes are pairwise distinct. *)
Ltac admin_branch Hnd :=
  unfold admin_operations in Hnd;
  repeat (apply NoDup_cons in Hnd as [? Hnd]);
  repeat match goal with
         | Hn : _ ∉ _ :: _ |- _ => apply not_elem_of_cons in Hn as [? Hn]
         end;
  unfold admin_dispatch;
  repeat (case_bool_decide; [congruence || idtac|]); try congruence.

(** X12: an admin message without an ["operation"] key raises [KeyError]
    before anything else is done: in particular the sender is not
    recorded as the Server connection. *)
Theorem admin_missing_operation self packed_data st :
  (data_in packed_data).2 !! "operation" = None ->
  portal_receive_adminserver2portal self packed_data st =
    (Raise (KeyError "operation"), st).
Proof.
  intros Hnone. unfold portal_receive_adminserver2portal.
  destruct (data_in packed_data) as [sessid kw]. simpl in Hnone.
  unfold bind, pop_operation. by rewrite Hnone.
Qed.

(** X13: an admin message whose operation is none of the ten codes the
    responder knows raises [Exception("operation ... not recognized.")];
    by then the sender has been stored as the Server connection, and
    that is the only change. *)
Theorem admin_unrecognized_operation self packed_data operation st :
  (data_in packed_data).2 !! "operation" = Some operation ->
  (forall op, op ∈ admin_operations -> operation <> PyStr op) ->
  portal_receive_adminserver2portal self packed_data st =
    (Raise (Exception_ ("operation " ++ str_pyval operation ++ " not recognized.")),
     set_server_connection (Some self) st).
Proof.
  intros Hop Hout. destruct (data_in packed_data) as [sessid kw] eqn:Hin. simpl in Hop.
  rewrite (admin_unfold _ _ _ _ _ _ Hin Hop). unfold admin_dispatch.
  repeat (case_bool_decide;
          [exfalso;
           match goal with
           | Heq : operation = PyStr ?op |- _ =>
               apply (Hout op); [unfold admin_operations; set_solver | exact Heq]
           end|]).
  reflexivity.
Qed.

(** X14: a login or a disconnect ordered for a session the Portal does
    not know is ignored: the session handler is not called, the reply is
    the empty dictionary, and only the Server connection is recorded. *)
Theorem admin_unknown_session_ignored self packed_data operation st :
  (data_in packed_data).2 !! "operation" = Some operation ->
  operation = PyStr SLOGIN \/ operation = PyStr SDISCONN ->
  (data_in packed_data).1 ∉ sessions st ->
  portal_receive_adminserver2portal self packed_data st =
    (Return ∅, set_server_connection (Some self) st).
Proof.
  intros Hop Hcode Hunknown.
  destruct (data_in packed_data) as [sessid kw] eqn:Hin. simpl in Hop, Hunknown.
  rewrite (admin_unfold _ _ _ _ _ _ Hin Hop). unfold admin_dispatch.
  assert (Hno : bool_decide (sessid ∈ sessions st) = false)
    by (by apply bool_decide_eq_false_2).
  destruct Hcode as [-> | ->].
  - rewrite bool_decide_eq_true_2 by reflexivity.
    unfold bind, session_known, gets. simpl. by rewrite Hno.
  - destruct (bool_decide (PyStr SDISCONN = PyStr SLOGIN)).
    + unfold bind, session_known, gets. simpl. by rewrite Hno.
    + rewrite bool_decide_eq_true_2 by reflexivity.
      unfold bind, session_known, gets. simpl. by rewrite Hno.
Qed.

(** X15: a reload or reset ordered by the Server.  The responder
    registers, for the sending connection, a re-spawn with the command
    cached at that moment, then sends the notice.  When that connection
    closes, the cached command is launched once, the entry is gone from
    the registry, and [connectionLost] returns normally. *)
Theorem admin_reload_cycle self packed_data operation st :
  NoDup admin_operations ->
  (data_in packed_data).2 !! "operation" = Some (PyStr operation) ->
  operation = SRELOAD \/ operation = SRESET ->
  let after := portal_receive_adminserver2portal self packed_data st in
  let closed := connectionLost self after.2 in
  after.1 = Return ∅ /\
  disconnect_callbacks after.2
    = <[self := cb_start_server self (server_twistd_cmd st)]> (disconnect_callbacks st) /\
  trace after.2 = (trace st ++ [EvSendAdminPortal2Server DUMMYSESSION operation ∅])%list /\
  closed.1 = Return tt /\
  disconnect_callbacks closed.2 !! self = None /\
  launches closed.2 = (launches st ++ [server_twistd_cmd st])%list.
Proof.
  intros Hnd Hop Hcode after closed.
  destruct (data_in packed_data) as [sessid kw] eqn:Hin. simpl in Hop.
  assert (Hafter : after =
            (Return ∅,
             emit_to (EvSendAdminPortal2Server DUMMYSESSION operation ∅)
               (set_disconnect_callbacks
                  (<[self := cb_start_server self (server_twistd_cmd st)]>
                     (disconnect_callbacks st))
                  (set_server_connection (Some self) st)))).
  { subst after. rewrite (admin_unfold _ _ _ _ _ _ Hin Hop).
    destruct Hcode as [-> | ->]; admin_branch Hnd; reflexivity. }
  subst closed. rewrite Hafter. simpl.
  split; [reflexivity|]. split; [reflexivity|]. split; [reflexivity|].
  rewrite connectionLost_unfold. simpl. rewrite lookup_insert_eq.
  match goal with
  | |- context [run_callback ?cb ?s] =>
      pose proof (cb_start_server_no_registering self (server_twistd_cmd st) s) as Hreg;
      destruct (start_server_one_launch self (server_twistd_cmd st) s)
        as (r & st' & Hrun & _ & Hl)
  end.
  simpl in Hreg |- *. unfold bind in Hreg |- *. rewrite Hrun in Hreg |- *.
  simpl in Hreg |- *. split; [reflexivity|]. split.
  - rewrite Hreg. apply lookup_delete_eq.
  - rewrite Hl. unfold popped. simpl.
    change (launches (emit_to (EvSendAdminPortal2Server DUMMYSESSION operation ∅) st)
              ++ [server_twistd_cmd st] = launches st ++ [server_twistd_cmd st])%list.
    by rewrite launches_quiet_event.
Qed.


(** X17: a Server-only shutdown ordered by the Server just sends the
    shutdown notice.  The registry of disconnect callbacks is left as it
    was: nothing is registered, and nothing registered earlier is
    cancelled. *)
Theorem admin_shutdown_core self packed_data st :
  NoDup admin_operations ->
  (data_in packed_data).2 !! "operation" = Some (PyStr SSHUTD) ->
  portal_receive_adminserver2portal self packed_data st =
    (Return ∅,
     emit_to (EvSendAdminPortal2Server DUMMYSESSION SSHUTD ∅)
       (set_server_connection (Some self) st)).
Proof.
  intros Hnd Hop.
  destruct (data_in packed_data) as [sessid kw] eqn:Hin. simpl in Hop.
  rewrite (admin_unfold _ _ _ _ _ _ Hin Hop).
  admin_branch Hnd; reflexivity.
Qed.

(** X18: a session sync pushed by the Server is handed to the session
    handler with the message's [sessiondata] and [clean] values, [clean]
    being [True] when the message has none, and the factory's
    restart-mode flag is set. *)
Theorem admin_session_sync self packed_data st :
  NoDup admin_operations ->
  (data_in packed_data).2 !! "operation" = Some (PyStr SSYNC) ->
  let kw := (data_in packed_data).2 in
  portal_receive_adminserver2portal self packed_data st =
    (Return ∅,
     set_server_restart_mode true
       (emit_to (EvSessions (server_session_sync (kw !! "sessiondata")
                               (default (PyBool true) (kw !! "clean"))))
          (set_server_connection (Some self) st))).
Proof.
  intros Hnd Hop kw0. subst kw0.
  destruct (data_in packed_data) as [sessid kw] eqn:Hin. simpl in Hop |- *.
  rewrite (admin_unfold _ _ _ _ _ _ Hin Hop).
  admin_branch Hnd.
  unfold bind, emit, modify, ret. simpl.
  by rewrite !lookup_delete_ne.
Qed.

(** X19: a forced connection ordered by the Server calls
    [server_connect] with the message's keyword arguments minus
    ["operation"], which [pop] took out; all other keys are passed on. *)
Theorem admin_force_connect self packed_data st :
  NoDup admin_operations ->
  (data_in packed_data).2 !! "operation" = Some (PyStr SCONN) ->
  exists kw',
    portal_receive_adminserver2portal self packed_data st =
      (Return ∅,
       emit_to (EvSessions (server_connect kw')) (set_server_connection (Some self) st)) /\
    kw' !! "operation" = None /\
    forall k, k <> "operation" -> kw' !! k = (data_in packed_data).2 !! k.
Proof.
  intros Hnd Hop.
  destruct (data_in packed_data) as [sessid kw] eqn:Hin. simpl in Hop |- *.
  exists (delete "operation" kw). split; [|split].
  - rewrite (admin_unfold _ _ _ _ _ _ Hin Hop).
    admin_branch Hnd; reflexivity.
  - apply lookup_delete_eq.
  - intros k Hk. by apply lookup_delete_ne.
Qed.

Lemma stop_server_process_state self mode : preserves process_state (stop_server self mode).
Proof.
  intros st. unfold process_state.
  rewrite (stop_server_launches self mode st).
  pose proof (stop_server_preserves
                (fun s => (server_process_id s, server_twistd_cmd s, transport_connected s))
                self mode (fun _ _ => eq_refl) st) as Hrest.
  simpl in Hrest. by injection Hrest as -> -> ->.
Qed.

Lemma admin_process_state self packed_data st :
  process_state (portal_receive_adminserver2portal self packed_data st).2 = process_state st.
Proof.
  revert st. change (preserves process_state
                       (portal_receive_adminserver2portal self packed_data)).
  pose proof (stop_server_process_state self) as Hstop.
  assert (Hquiet : forall ev, launch_of ev = None ->
            forall st, process_state (emit_to ev st) = process_state st).
  { intros ev Hev st. unfold process_state. by rewrite launches_quiet_event. }
  unfold portal_receive_adminserver2portal.
  destruct (data_in packed_data) as [sessid kw].
  apply preserves_bind;
    [unfold pop_operation; destruct (kw !! "operation");
     [apply preserves_ret | apply preserves_raise]
    |intros [operation kw']].
  unfold admin_dispatch, session_known, server_connection_wait_for_disconnect,
    wait_for_disconnect, send_AdminPortal2Server, emit.
  repeat first
    [ apply preserves_ret | apply preserves_raise | apply preserves_gets
    | apply Hstop
    | apply preserves_modify; intros; first [reflexivity | by apply Hquiet]
    | apply preserves_bind; [|intro]
    | match goal with
      | |- preserves _ (let '(_, _) := ?p in _) => destruct p
      | |- preserves _ (if ?b then _ else _) => destruct b
      | |- preserves _ (match ?o with Some _ => _ | None => _ end) => destruct o
      end ].
Qed.

(** X20: whatever the message, the server responder launches nothing
    itself and leaves the stored pid, the cached command and the open
    transports alone (a re-spawn is only ever registered for later); when
    it returns, its reply is the empty dictionary. *)
Theorem admin_keeps_process_state self packed_data st :
  let after := portal_receive_adminserver2portal self packed_data st in
  process_state after.2 = process_state st /\
  forall r, after.1 = Return r -> r = ∅.
Proof.
  intros after. subst after. split.
  - apply admin_process_state.
  - intros r. unfold portal_receive_adminserver2portal.
    destruct (data_in packed_data) as [sessid kw].
    unfold pop_operation, bind at 1.
    destruct (kw !! "operation") as [operation|]; [|discriminate].
    simpl. unfold bind at 1. simpl.
    unfold admin_dispatch, session_known, server_connection_wait_for_disconnect.
    repeat (case_bool_decide;
            [unfold bind, gets, stop_server, send_AdminPortal2Server; simpl;
             repeat match goal with
                    | |- context [bool_decide ?P] => destruct (bool_decide P)
                    end;
             simpl; congruence|]).
    discriminate.
Qed.

(** ** Further properties: the status responder *)

Context {SC : StatusCollaborators}.

(** X21: the status responder changes nothing and cannot fail.  It always
    reports the Portal as running, the Server as running exactly when the
    stored Server connection has an open transport, the Portal's own pid,
    and whatever Server pid is stored (also when the Server is not
    connected, and [None] when none is stored). *)
Theorem status_reports self status st :
  portal_receive_status self status st =
    (Return {[ "status" := dumps_status true (server_connected st) getpid
                                        (server_process_id st) ]},
     st).
Proof.
  unfold portal_receive_status, bind, gets.
  destruct (server_connected st); reflexivity.
Qed.

(** X22: once any admin message carrying an operation has arrived over a
    connection whose transport is open, the status responder reports the
    Server as running, with the stored pid unchanged; this holds even if
    the admin responder raised because the operation was unknown. *)
Theorem status_after_admin_message self asker packed_data operation status st :
  (data_in packed_data).2 !! "operation" = Some operation ->
  self ∈ transport_connected st ->
  let after := (portal_receive_adminserver2portal self packed_data st).2 in
  (portal_receive_status asker status after).1 =
    Return {[ "status" := dumps_status true true getpid (server_process_id st) ]}.
Proof.
  intros Hop Hopen after.
  destruct (data_in packed_data) as [sessid kw] eqn:Hin. simpl in Hop.
  assert (Hsc : server_connection after = Some self).
  { subst after. rewrite (admin_unfold _ _ _ _ _ _ Hin Hop).
    apply (admin_dispatch_server_connection self sessid operation
             (delete "operation" kw) (set_server_connection (Some self) st)). }
  assert (Hps : process_state after = process_state st).
  { subst after. apply admin_process_state. }
  unfold process_state in Hps. injection Hps as _ Hpid _ Hopen'.
  unfold portal_receive_status, bind, gets, server_connected. simpl.
  rewrite Hsc, Hopen', Hpid.
  by rewrite (bool_decide_eq_true_2 _ Hopen).
Qed.

End Properties.

(** * Scenarios on the concrete environment *)

Section Scenarios.
Local Existing Instance posix_env.


Lemma start_server_failure_witness :
  Popen (trace running_state) (Some ["no-such-binary"]) getenv = LaunchFailed (OSError_ 2) /\
  exists st',
    start_server server (Some ["no-such-binary"]) running_state = (Return 0, st') /\
    server_process_id st' = None /\
    server_twistd_cmd st' = Some ["run-core"] /\
    server_connection st' = Some server /\
    disconnect_callbacks st' = ∅ /\
    trace st' = [EvPopen (Some ["no-such-binary"]) getenv; EvLogTrace (OSError_ 2)].
Proof.
  split; [reflexivity|].
  apply (start_server_failure server (Some ["no-such-binary"]) running_state (OSError_ 2)).
  reflexivity.
Defined.

Lemma start_while_connected_witness :
  server_connected running_state = true /\
  loads "run-core" = Return ["run-core"] /\
  let after := portal_receive_launcher2portal launcher SSTART "run-core" running_state in
  launches after.2 = [] /\
  server_process_id after.2 = Some 100 /\
  server_twistd_cmd after.2 = Some ["run-core"] /\
  disconnect_callbacks after.2 = ∅ /\
  after.1 = Return (_retval false "Server already running at PID=100").
Proof.
  split; [reflexivity|]. split; [reflexivity|].
  destruct (start_while_connected launcher "run-core" running_state eq_refl)
    as (Hlaunch & Hpid & Hcmd & Hreg & Hreply & _).
  split; [exact Hlaunch|]. split; [exact Hpid|]. split; [exact Hcmd|].
  split; [exact Hreg|].
  exact (f_equal fst (Hreply ["run-core"] eq_refl)).
Defined.


Lemma connectionLost_swallows_action_errors_witness :
  let st := (wait_for_disconnect server (cb_other 0) running_state).2 in
  disconnect_callbacks st !! server = Some (cb_other 0) /\
  run_callback (cb_other 0) (popped server st) = (Raise (OtherError 0), popped server st) /\
  connectionLost server st =
    (Return tt, emit_to (EvLogTrace (OtherError 0)) (popped server st)).
Proof.
  intros st.
  assert (Hreg : disconnect_callbacks st !! server = Some (cb_other 0)) by reflexivity.
  assert (Hraise : run_callback (cb_other 0) (popped server st)
                   = (Raise (OtherError 0), popped server st)) by reflexivity.
  split; [exact Hreg|]. split; [exact Hraise|].
  destruct (connectionLost_swallows_action_errors server st) as (_ & _ & Hcaught & _).
  exact (Hcaught _ _ _ Hreg Hraise).
Defined.

Lemma unrecognized_operation_raises_witness :
  (chr 99 ∉ launcher_operations) /\
  portal_receive_launcher2portal launcher (chr 99) "" running_state =
    (Raise (Exception_ "operation c not recognized."),
     emit_to (EvLogMsg (LogArguments [""]))
       (emit_to (EvLogMsg (LogOperation 99)) running_state)).
Proof.
  assert (Hout : chr 99 ∉ launcher_operations)
    by (apply (bool_decide_unpack _); vm_compute; exact I).
  split; [exact Hout|].
  exact (unrecognized_operation_raises launcher "c"%char "" running_state Hout).
Defined.

Lemma admin_message_marks_server_connection_witness :
  (data_in "?").2 !! "operation" = Some (PyStr "?") /\
  server_connection (portal_receive_adminserver2portal 3%positive "?" running_state).2
    = Some 3%positive.
Proof.
  split; [reflexivity|].
  apply (admin_message_marks_server_connection 3%positive "?" (PyStr "?") running_state).
  reflexivity.
Defined.

(** ** What the launcher responder does where the specification differs *)

(** C1: [reload] from the launcher while the Server is connected at PID
    100: the responder only sends the reload notice and answers with the
    fallback dictionary; no disconnect action is registered, so when the
    Server's connection then closes nothing is launched. *)
Theorem launcher_reload_registers_nothing :
  let after := portal_receive_launcher2portal launcher SRELOAD "" running_state in
  after.1 = Return fallback /\
  disconnect_callbacks after.2 = ∅ /\
  trace after.2 = [EvLogMsg (LogOperation 14); EvLogMsg (LogArguments [""]);
                   EvSendAdminPortal2Server 0 SRELOAD ∅] /\
  server_process_id after.2 = Some 100 /\
  connectionLost server after.2 = (Return tt, after.2).
Proof. vm_compute. repeat split. Qed.

(** The same operation arriving from the Server does register the
    re-spawn: closing the connection launches the cached command. *)
Lemma server_reload_registers_respawn :
  let after := portal_receive_adminserver2portal server SRELOAD running_state in
  let closed := connectionLost server after.2 in
  disconnect_callbacks after.2 = {[ server := cb_start_server server (Some ["run-core"]) ]} /\
  server_process_id closed.2 = Some 101 /\
  trace closed.2 = [EvSendAdminPortal2Server 0 SRELOAD ∅;
                    EvPopen (Some ["run-core"]) getenv;
                    EvLogServer "Server starting"].
Proof. vm_compute. repeat split. Qed.

(** C2: [shutdown-all] from the launcher while the Server is connected:
    the responder sends the shutdown notice and replies "Server stopped.";
    it registers no disconnect action and never calls [portal.shutdown],
    neither at once nor when the Server's connection closes. *)
Theorem launcher_shutdown_all_keeps_portal_up :
  let after := portal_receive_launcher2portal launcher PSHUTD "" running_state in
  after.1 = Return (_retval true "Server stopped.") /\
  disconnect_callbacks after.2 = ∅ /\
  trace after.2 = [EvLogMsg (LogOperation 16); EvLogMsg (LogArguments [""]);
                   EvSendAdminPortal2Server 0 SSHUTD ∅] /\
  connectionLost server after.2 = (Return tt, after.2).
Proof. vm_compute. repeat split. Qed.

(** The same operation arriving from the Server registers the Portal's
    own shutdown before the notice goes out. *)
Lemma server_shutdown_all_registers_portal_shutdown :
  let after := portal_receive_adminserver2portal server PSHUTD running_state in
  let closed := connectionLost server after.2 in
  disconnect_callbacks after.2 = {[ server := cb_portal_shutdown false ]} /\
  trace closed.2 = [EvSendAdminPortal2Server 0 SSHUTD ∅; EvPortalShutdown false].
Proof. vm_compute. repeat split. Qed.

(** C3: [reset] from the launcher while the Server is connected: the
    reset notice is sent, and building the reply then reads the local
    [spid], which no statement on that path has bound; the responder
    raises [UnboundLocalError] and produces no reply. *)
Theorem launcher_reset_while_connected_raises :
  portal_receive_launcher2portal launcher SRESET "" running_state =
    (Raise (UnboundLocalError "spid"),
     emit_to (EvSendAdminPortal2Server 0 SRESET ∅)
       (emit_to (EvLogMsg (LogArguments [""]))
          (emit_to (EvLogMsg (LogOperation 19)) running_state))).
Proof. vm_compute. reflexivity. Qed.

(** C4: [start] from the launcher with no Server connected and a command
    that cannot be launched: [start_server] gives 0, the stored process
    id is [None], and the reply is the success reply
    [(True, "Server started with PID 0.")]. *)
Theorem launcher_start_failure_reports_success :
  let after := portal_receive_launcher2portal launcher SSTART "no-such-binary" idle_state in
  Popen [EvLogMsg (LogOperation 15); EvLogMsg (LogArguments ["no-such-binary"])]
        (Some ["no-such-binary"]) getenv = LaunchFailed (OSError_ 2) /\
  after.1 = Return (_retval true "Server started with PID 0.") /\
  server_process_id after.2 = None /\
  trace after.2 = [EvLogMsg (LogOperation 15); EvLogMsg (LogArguments ["no-such-binary"]);
                   EvPopen (Some ["no-such-binary"]) getenv; EvLogTrace (OSError_ 2)].
Proof. vm_compute. repeat split. Qed.

(** C5 without its amendment does not hold at operation code 99: the
    responder's outcome there is a raised exception, so it returns no
    reply of the form [(False, txt)]. *)
Lemma unrecognized_operation_gives_no_reply :
  ~ exists txt st',
      portal_receive_launcher2portal launcher (chr 99) "" running_state =
        (Return (_retval false txt), st').
Proof.
  intros (txt & st' & Hreply).
  assert (Hraise : (portal_receive_launcher2portal launcher (chr 99) "" running_state).1
                   = Raise (Exception_ "operation c not recognized."))
    by (vm_compute; reflexivity).
  rewrite Hreply in Hraise. discriminate Hraise.
Qed.


(** C9 without its amendment does not hold: an action that raises
    [SystemExit] is not caught by [except Exception]; the exception
    leaves [connectionLost] and nothing is logged. *)
Lemma system_exit_leaves_connectionLost :
  let st := (wait_for_disconnect server (cb_other 1) running_state).2 in
  connectionLost server st = (Raise (SystemExit_ 0), popped server st) /\
  (connectionLost server st).1 <> Return tt.
Proof.
  intros st. split; [reflexivity|]. discriminate.
Qed.

End Scenarios.

(** * Further scenarios *)

Section MoreScenarios.
Local Existing Instance posix_env.
Local Existing Instance posix_status.

Lemma start_server_success_witness :
  Popen (trace idle_state) (Some ["run-core"]) getenv = Launched 101 "Server starting" /\
  exists st',
    start_server server (Some ["run-core"]) idle_state = (Return 101, st') /\
    server_process_id st' = Some 101 /\
    server_twistd_cmd st' = Some ["run-core"] /\
    connection_state st' = connection_state idle_state /\
    trace st' = [EvPopen (Some ["run-core"]) getenv; EvLogServer "Server starting"].
Proof.
  split; [reflexivity|].
  exact (start_server_success server (Some ["run-core"]) idle_state 101
           "Server starting" eq_refl).
Defined.

Lemma stop_server_unknown_mode_witness :
  ("restart" ∉ stop_modes) /\
  stop_server server "restart" running_state = (Return tt, running_state).
Proof.
  assert (Hout : "restart" ∉ stop_modes)
    by (apply (bool_decide_unpack _); vm_compute; exact I).
  split; [exact Hout|].
  exact (stop_server_unknown_mode server "restart" running_state Hout).
Defined.

Lemma connectionLost_other_connection_witness :
  launcher <> server /\
  (forall cb, disconnect_callbacks pending_state !! launcher = Some cb ->
              runs_without_registering cb) /\
  disconnect_callbacks (connectionLost launcher pending_state).2 !! server
    = Some (cb_start_server server (Some ["run-core"])).
Proof.
  assert (Hne : launcher <> server) by discriminate.
  assert (Hquiet : forall cb, disconnect_callbacks pending_state !! launcher = Some cb ->
                              runs_without_registering cb).
  { intros cb Hcb.
    assert (cb = cb_portal_shutdown false) as -> by (vm_compute in Hcb; congruence).
    intros st. reflexivity. }
  split; [exact Hne|]. split; [exact Hquiet|].
  exact (connectionLost_other_connection launcher server pending_state Hne Hquiet).
Defined.

Lemma launcher_spawns_when_disconnected_witness :
  (SRELOAD ∈ spawning_operations) /\
  server_connected idle_state = false /\
  loads "run-core" = Return ["run-core"] /\
  exists st',
    portal_receive_launcher2portal launcher SRELOAD "run-core" idle_state =
      (Return (_retval true "Server started with PID 101."), st') /\
    server_process_id st' = Some 101 /\
    server_twistd_cmd st' = Some ["run-core"] /\
    launches st' = [Some ["run-core"]].
Proof.
  assert (Hin : SRELOAD ∈ spawning_operations)
    by (apply (bool_decide_unpack _); vm_compute; exact I).
  split; [exact Hin|]. split; [reflexivity|]. split; [reflexivity|].
  exact (launcher_spawns_when_disconnected launcher SRELOAD "run-core" ["run-core"]
           idle_state 101 "Server starting" Hin eq_refl eq_refl eq_refl).
Defined.

Lemma launcher_shutdown_all_disconnected_witness :
  server_connected idle_state = false /\
  portal_receive_launcher2portal launcher PSHUTD "" idle_state =
    (Return fallback,
     emit_to (EvPortalShutdown false) (after_log_lines PSHUTD [""] idle_state)).
Proof.
  split; [reflexivity|].
  exact (launcher_shutdown_all_disconnected launcher "" idle_state eq_refl).
Defined.

Lemma launcher_keeps_connection_state_witness :
  ~ calls_portal_shutdown PSHUTD running_state /\
  connection_state (portal_receive_launcher2portal launcher PSHUTD "" running_state).2
    = connection_state running_state.
Proof.
  assert (Hquiet : ~ calls_portal_shutdown PSHUTD running_state)
    by (intros [_ Hdown]; discriminate Hdown).
  split; [exact Hquiet|].
  exact (launcher_keeps_connection_state launcher PSHUTD "" running_state Hquiet).
Defined.

Lemma launcher_launches_witness :
  ~ calls_portal_shutdown SRESET idle_state /\
  launches (portal_receive_launcher2portal launcher SRESET "run-core" idle_state).2
    = [Some ["run-core"]].
Proof.
  assert (Hquiet : ~ calls_portal_shutdown SRESET idle_state)
    by (intros [Hop _]; discriminate Hop).
  split; [exact Hquiet|].
  exact (launcher_launches launcher SRESET "run-core" idle_state Hquiet).
Defined.

Lemma launcher_operation_not_a_character_witness :
  (forall c, "" <> String c EmptyString) /\
  portal_receive_launcher2portal launcher "" "run-core" running_state =
    (Raise (TypeError "ord() expected a character"), running_state).
Proof.
  assert (Hshape : forall c, "" <> String c EmptyString) by (intros c; discriminate).
  split; [exact Hshape|].
  exact (launcher_operation_not_a_character launcher "" "run-core" running_state Hshape).
Defined.

Lemma admin_unrecognized_operation_witness :
  (data_in "?").2 !! "operation" = Some (PyStr "?") /\
  (forall op, op ∈ admin_operations -> PyStr "?" <> PyStr op) /\
  portal_receive_adminserver2portal server "?" idle_state =
    (Raise (Exception_ "operation ? not recognized."),
     set_server_connection (Some server) idle_state).
Proof.
  assert (Hout : forall op, op ∈ admin_operations -> PyStr "?" <> PyStr op).
  { intros op Hin Heq. injection Heq as <-. revert Hin.
    change ("?" ∉ admin_operations).
    apply (bool_decide_unpack _). vm_compute. exact I. }
  split; [reflexivity|]. split; [exact Hout|].
  exact (admin_unrecognized_operation server "?" (PyStr "?") idle_state eq_refl Hout).
Defined.

Lemma admin_unknown_session_ignored_witness :
  (data_in SLOGIN).2 !! "operation" = Some (PyStr SLOGIN) /\
  ((data_in SLOGIN).1 ∉ sessions running_state) /\
  portal_receive_adminserver2portal server SLOGIN running_state =
    (Return ∅, set_server_connection (Some server) running_state).
Proof.
  assert (Hunknown : (data_in SLOGIN).1 ∉ sessions running_state)
    by (apply (bool_decide_unpack _); vm_compute; exact I).
  split; [reflexivity|]. split; [exact Hunknown|].
  exact (admin_unknown_session_ignored server SLOGIN (PyStr SLOGIN) running_state
           eq_refl (or_introl eq_refl) Hunknown).
Defined.

Lemma admin_codes_distinct : NoDup admin_operations.
Proof. apply (bool_decide_unpack _). vm_compute. exact I. Defined.

Lemma admin_reload_cycle_witness :
  NoDup admin_operations /\
  (data_in SRELOAD).2 !! "operation" = Some (PyStr SRELOAD) /\
  let after := portal_receive_adminserver2portal server SRELOAD running_state in
  let closed := connectionLost server after.2 in
  closed.1 = Return tt /\
  disconnect_callbacks closed.2 !! server = None /\
  launches closed.2 = [Some ["run-core"]].
Proof.
  split; [exact admin_codes_distinct|]. split; [reflexivity|].
  destruct (admin_reload_cycle server SRELOAD SRELOAD running_state
              admin_codes_distinct eq_refl (or_introl eq_refl))
    as (_ & _ & _ & Hret & Hgone & Hlaunch).
  split; [exact Hret|]. split; [exact Hgone|exact Hlaunch].
Defined.


Lemma admin_shutdown_core_witness :
  NoDup admin_operations /\
  (data_in SSHUTD).2 !! "operation" = Some (PyStr SSHUTD) /\
  portal_receive_adminserver2portal server SSHUTD pending_state =
    (Return ∅,
     emit_to (EvSendAdminPortal2Server 0 SSHUTD ∅)
       (set_server_connection (Some server) pending_state)).
Proof.
  split; [exact admin_codes_distinct|]. split; [reflexivity|].
  exact (admin_shutdown_core server SSHUTD pending_state admin_codes_distinct eq_refl).
Defined.

Lemma admin_keeps_process_state_witness :
  let after := portal_receive_adminserver2portal server SRESET running_state in
  process_state after.2 = process_state running_state /\
  after.1 = Return ∅.
Proof.
  intros after.
  destruct (admin_keeps_process_state server SRESET running_state) as [Hkeep Hreply].
  split; [exact Hkeep|].
  assert (Hret : after.1 = Return ∅) by reflexivity.
  exact Hret.
Defined.

Lemma status_after_admin_message_witness :
  (data_in "?").2 !! "operation" = Some (PyStr "?") /\
  (server ∈ transport_connected running_state) /\
  (portal_receive_status launcher ""
     (portal_receive_adminserver2portal server "?" running_state).2).1
    = Return {[ "status" := "(True, True, 4242, 100)" ]}.
Proof.
  assert (Hopen : server ∈ transport_connected running_state)
    by (apply (bool_decide_unpack _); vm_compute; exact I).
  split; [reflexivity|]. split; [exact Hopen|].
  exact (status_after_admin_message server launcher "?" (PyStr "?") "" running_state
           eq_refl Hopen).
Defined.

End MoreScenarios.

Section WireScenarios.
Local Existing Instance wire_env.

Lemma wire_codes_distinct : NoDup admin_operations.
Proof. apply (bool_decide_unpack _). vm_compute. exact I. Defined.

Lemma admin_missing_operation_witness :
  (data_in "").2 !! "operation" = None /\
  portal_receive_adminserver2portal server "" idle_state =
    (Raise (KeyError "operation"), idle_state).
Proof.
  split; [reflexivity|].
  exact (admin_missing_operation server "" idle_state eq_refl).
Defined.

Lemma admin_session_sync_witness :
  NoDup admin_operations /\
  (data_in SSYNC).2 !! "operation" = Some (PyStr SSYNC) /\
  portal_receive_adminserver2portal server SSYNC idle_state =
    (Return ∅,
     set_server_restart_mode true
       (emit_to (EvSessions (server_session_sync (Some (PyStr "blob")) (PyBool true)))
          (set_server_connection (Some server) idle_state))).
Proof.
  split; [exact wire_codes_distinct|]. split; [reflexivity|].
  exact (admin_session_sync server SSYNC idle_state wire_codes_distinct eq_refl).
Defined.

Lemma admin_force_connect_witness :
  NoDup admin_operations /\
  (data_in SCONN).2 !! "operation" = Some (PyStr SCONN) /\
  exists kw',
    portal_receive_adminserver2portal server SCONN idle_state =
      (Return ∅,
       emit_to (EvSessions (server_connect kw'))
         (set_server_connection (Some server) idle_state)) /\
    kw' !! "operation" = None /\
    forall k, k <> "operation" -> kw' !! k = (data_in SCONN).2 !! k.
Proof.
  split; [exact wire_codes_distinct|]. split; [reflexivity|].
  exact (admin_force_connect server SCONN idle_state wire_codes_distinct eq_refl).
Defined.

(** C6 without its amendment does not hold: with the Server connected
    and an arguments blob that [amp.loads] cannot decode, [start] raises
    after the first log line, so there is no reply and in particular none
    of the form [(False, txt)]. *)
Lemma start_with_undecodable_blob_gives_no_reply :
  server_connected running_state = true /\
  portal_receive_launcher2portal launcher SSTART "" running_state =
    (Raise EOFError_, emit_to (EvLogMsg (LogOperation 15)) running_state) /\
  ~ exists txt st',
      portal_receive_launcher2portal launcher SSTART "" running_state =
        (Return (_retval false txt), st').
Proof.
  split; [reflexivity|]. split; [reflexivity|].
  intros (txt & st' & Hreply).
  assert (Hraise : (portal_receive_launcher2portal launcher SSTART "" running_state).1
                   = Raise EOFError_) by reflexivity.
  rewrite Hreply in Hraise. discriminate Hraise.
Qed.

End WireScenarios.
